(** * Shallow embedding of [prototype_cv.py]: ink-coverage analysis and
    tiered print pricing. *)

From Stdlib Require Import ZArith QArith List Ascii String Bool Lia Lqa.
Import ListNotations.
Open Scope string_scope.

(** ** Python floats

    A Python float is a finite value (a rational), one of the two
    infinities, or NaN. Comparisons follow IEEE: every comparison with NaN
    is false. *)

Inductive pyfloat : Type :=
| Fin (q : Q)
| PInf
| NInf
| NaN.

(** [x <= y] *)
Definition fle (x y : pyfloat) : bool :=
  match x, y with
  | NaN, _ | _, NaN => false
  | Fin a, Fin b => Qle_bool a b
  | NInf, _ => true
  | _, PInf => true
  | _, _ => false
  end.

(** [x < y] *)
Definition flt (x y : pyfloat) : bool :=
  match x, y with
  | NaN, _ | _, NaN => false
  | Fin a, Fin b => negb (Qle_bool b a)
  | NInf, NInf => false
  | NInf, _ => true
  | PInf, _ => false
  | _, PInf => true
  | Fin _, NInf => false
  end.

(** Python's [int()] on a finite float: truncation toward zero. *)
Definition py_int (q : Q) : Z := Z.quot (Qnum q) (Zpos (Qden q)).

(** ** Stage 2: [calculate_price_options] *)

(** The returned dict. *)
Record pricing : Type := mk_pricing {
  paper_price : Z;
  tier_name : string;
  bw_ink_price : Z;
  color_ink_price : Z;
  final_bw_price : Z;
  final_color_price : Z
}.

Definition PAPER_PRICE : Q := 1.

Definition tier1_name : string := "Tier 1: Light (0-25%)".
Definition tier2_name : string := "Tier 2: Medium (26-50%)".
Definition tier3_name : string := "Tier 3: Heavy (51-75%)".
Definition tier4_name : string := "Tier 4: Dense/Full (76-100%)".
Definition na_name : string := "N/A".

(** The if/elif chain: the tier name and the two ink prices it assigns;
    when no branch matches the defaults ["N/A"], [0.00], [0.00] stay. *)
Definition tier_branch (coverage_percentage : pyfloat) : string * Q * Q :=
  if fle (Fin 0) coverage_percentage && fle coverage_percentage (Fin 25)
  then (tier1_name, 1, 2)
  else if flt (Fin 25) coverage_percentage && fle coverage_percentage (Fin 50)
  then (tier2_name, 2, 4)
  else if flt (Fin 50) coverage_percentage && fle coverage_percentage (Fin 75)
  then (tier3_name, 3, 6)
  else if flt (Fin 75) coverage_percentage
  then (tier4_name, 4, 9)
  else (na_name, 0, 0).

Definition calculate_price_options (coverage_percentage : pyfloat) : pricing :=
  let '(tier_name, bw_ink_price, color_ink_price) :=
    tier_branch coverage_percentage in
  let final_bw_price := py_int (PAPER_PRICE + bw_ink_price) in
  let final_color_price := py_int (PAPER_PRICE + color_ink_price) in
  {| paper_price := py_int PAPER_PRICE;
     tier_name := tier_name;
     bw_ink_price := py_int bw_ink_price;
     color_ink_price := py_int color_ink_price;
     final_bw_price := final_bw_price;
     final_color_price := final_color_price |}.

(** ** Stage 1: [perform_technical_analysis]

    The argument is a numpy [uint8] array. A three-dimensional array is a
    list of rows, each a list of pixels, each a list of channel values;
    anything else handed to the function is [OtherObj]. *)

Inductive ndarray : Type :=
| Arr3 (rows : list (list (list Z)))
| OtherObj.

(** A pixel after [cv2.split]: its blue, green and red channel. *)
Record bgr : Type := mk_bgr { px_b : Z; px_g : Z; px_r : Z }.

Fixpoint split_row (row : list (list Z)) : option (list bgr) :=
  match row with
  | [] => Some []
  | [b; g; r] :: tl =>
      match split_row tl with
      | Some ps => Some (mk_bgr b g r :: ps)
      | None => None
      end
  | _ :: _ => None
  end.

Fixpoint split_rows (rows : list (list (list Z))) : option (list (list bgr)) :=
  match rows with
  | [] => Some []
  | row :: tl =>
      match split_row row, split_rows tl with
      | Some ps, Some pss => Some (ps :: pss)
      | _, _ => None
      end
  end.

(** [b, g, r = cv2.split(img)]: the unpacking succeeds only for an array of
    exactly three channels (numpy arrays are rectangular, so every row has
    the width of the first). *)
Definition cv2_split (rows : list (list (list Z))) : option (list (list bgr)) :=
  let width := match rows with [] => 0%nat | row :: _ => List.length row end in
  if forallb (fun row => Nat.eqb (List.length row) width) rows
  then split_rows rows else None.

(** [g - r] on [uint8] arrays wraps modulo 256. *)
Definition sub_u8 (x y : Z) : Z := ((x - y) mod 256)%Z.

Definition count_nonzero (xs : list Z) : nat :=
  List.length (filter (fun v => negb (Z.eqb v 0)) xs).

(** [cv2.cvtColor(img, cv2.COLOR_BGR2GRAY)] on 8-bit data: OpenCV 4's
    fixed-point weights (0.299, 0.587, 0.114 scaled by 2^15: R 9798,
    G 19235, B 3735) with rounding. *)
Definition bgr2gray (p : bgr) : Z :=
  Z.shiftr (px_b p * 3735 + px_g p * 19235 + px_r p * 9798 + Z.shiftl 1 14)%Z 15.

(** [cv2.threshold(v, thresh, maxval, cv2.THRESH_BINARY_INV)]:
    [0] where [v > thresh], [maxval] elsewhere. *)
Definition thresh_binary_inv (thresh maxval v : Z) : Z :=
  if (v >? thresh)%Z then 0 else maxval.

Definition Color : string := "Color".
Definition BW : string := "B&W".

(** ** Float arithmetic of the coverage

    [(content_pixels / total_pixels) * 100]: Python's [int / int] is the
    exact quotient rounded to the nearest double, and [float * int] is the
    exact product rounded likewise (IEEE 754 binary64, ties to even). The
    operands here are non-negative and the results at most 100, so
    overflow does not arise; subnormals are covered by the lower bound on
    the exponent. *)

(** [floor (log2 (n / d))] for [n, d > 0]. *)
Definition flog2_ratio (n d : Z) : Z :=
  let k := (Z.log2 n - Z.log2 d)%Z in
  if (d * 2 ^ Z.max 0 k <=? n * 2 ^ Z.max 0 (- k))%Z then k else (k - 1)%Z.

(** The double nearest to [n / d], for [n >= 0] and [d > 0]. *)
Definition round_ratio (n d : Z) : Q :=
  if (n =? 0)%Z then 0 else
  let e := Z.max (flog2_ratio n d - 52) (-1074) in
  let num := (n * 2 ^ Z.max 0 (- e))%Z in
  let den := (d * 2 ^ Z.max 0 e)%Z in
  let q := (num / den)%Z in
  let r := (num mod den)%Z in
  let m := if (2 * r <? den)%Z then q
           else if (den <? 2 * r)%Z then (q + 1)%Z else (q + q mod 2)%Z in
  (m * 2 ^ Z.max 0 e)%Z # Z.to_pos (2 ^ Z.max 0 (- e)).

(** [a / b] on Python ints, [b > 0]. *)
Definition py_truediv (a b : Z) : Q := round_ratio a b.

(** [x * y] with [x] a non-negative float and [y] an int. *)
Definition py_mul (x : Q) (y : Z) : Q := round_ratio (Qnum x * y) (Zpos (Qden x)).

(** The body of the [try] block; [None] is an exception raised inside it. *)
Definition analysis_body (a : ndarray) : option (string * Q) :=
  match a with
  | OtherObj => None
  | Arr3 rows =>
      match cv2_split rows with
      | None => None
      | Some img =>
          let original_doc_type :=
            if (0 <? count_nonzero
                       (map (fun p => sub_u8 (px_g p) (px_r p)) (List.concat img)))%nat
            then Color else BW in
          let gray_image := map (map bgr2gray) img in
          let thresholded_image := map (map (thresh_binary_inv 240 255)) gray_image in
          let content_pixels := count_nonzero (List.concat thresholded_image) in
          let height := List.length thresholded_image in
          let width := match thresholded_image with
                       | [] => 0%nat | row :: _ => List.length row end in
          let total_pixels := (height * width)%nat in
          if Nat.eqb total_pixels 0 then None (* ZeroDivisionError *)
          else Some (original_doc_type,
                     py_mul (py_truediv (Z.of_nat content_pixels)
                                        (Z.of_nat total_pixels)) 100)
      end
  end.

(** Python values stored in the returned dict. *)
Inductive pyval : Type :=
| VBool (b : bool)
| VStr (s : string)
| VFloat (f : pyfloat).

Definition pydict : Type := list (string * pyval).

Fixpoint dict_get (k : string) (d : pydict) : option pyval :=
  match d with
  | [] => None
  | (k', v) :: tl => if String.eqb k k' then Some v else dict_get k tl
  end.

Definition perform_technical_analysis (open_cv_image : ndarray) : pydict :=
  match analysis_body open_cv_image with
  | Some (original_doc_type, coverage_percentage) =>
      [("success", VBool true);
       ("original_doc_type", VStr original_doc_type);
       ("coverage_percentage", VFloat (Fin coverage_percentage))]
  | None => [("success", VBool false)]
  end.

(** ** The page loop of [process_document]

    The rendering of the pages (docx to PDF to pixmaps) is an external
    collaborator: the loop is modelled from the list of page images it
    produces. *)

Record report : Type := mk_report {
  total_pages_printed : nat;
  grand_total_bw : Z;
  grand_total_color : Z
}.

(** One iteration: analyse the page; on failure [continue], otherwise
    price it and add its final prices to the grand totals. *)
Definition page_step (acc : Z * Z) (img : ndarray) : Z * Z :=
  let tech_results := perform_technical_analysis img in
  match dict_get "success" tech_results, dict_get "coverage_percentage" tech_results with
  | Some (VBool true), Some (VFloat coverage) =>
      let pricing := calculate_price_options coverage in
      (fst acc + final_bw_price pricing, snd acc + final_color_price pricing)%Z
  | _, _ => acc
  end.

Fixpoint page_loop (pages : list ndarray) (acc : Z * Z) : Z * Z :=
  match pages with
  | [] => acc
  | img :: rest => page_loop rest (page_step acc img)
  end.

Definition process_pages (pages : list ndarray) : report :=
  let total_pages := List.length pages in
  let '(bw, col) := page_loop pages (0%Z, 0%Z) in
  {| total_pages_printed := total_pages;
     grand_total_bw := bw;
     grand_total_color := col |}.

(** Number of pages whose analysis succeeded. *)
Definition pages_analysed (pages : list ndarray) : nat :=
  List.length (filter (fun img => match analysis_body img with
                             | Some _ => true | None => false end) pages).

Definition white : list Z := [255; 255; 255]%Z.
Definition black : list Z := [0; 0; 0]%Z.

(** Tier name with the two final prices of a breakdown. *)
Definition tier_result (c : pyfloat) : string * Z * Z :=
  let p := calculate_price_options c in
  (tier_name p, final_bw_price p, final_color_price p).

(** ** [pdf_path = docx_path.replace(".docx", ".pdf")]

    Python's [str.replace] scans left to right and replaces every
    non-overlapping occurrence of [old]; [skip] counts the characters of
    the last match that are still to be consumed. An empty [old] inserts
    [new] around every character. *)
Fixpoint replace_from (old new : string) (skip : nat) (s : string) : string :=
  match s with
  | EmptyString => EmptyString
  | String c rest =>
      match skip with
      | S k => replace_from old new k rest
      | O => if String.prefix old s
             then String.append new (replace_from old new (String.length old - 1) rest)
             else String c (replace_from old new 0 rest)
      end
  end.

Fixpoint interleave (new s : string) : string :=
  match s with
  | EmptyString => new
  | String c rest => String.append new (String c (interleave new rest))
  end.

Definition py_str_replace (s old new : string) : string :=
  match old with
  | EmptyString => interleave new s
  | String _ _ => replace_from old new 0 s
  end.

Definition pdf_path_of (docx_path : string) : string :=
  py_str_replace docx_path ".docx" ".pdf".

(** [old in s] *)
Fixpoint str_contains (old s : string) : bool :=
  String.prefix old s ||
  match s with EmptyString => false | String _ rest => str_contains old rest end.

(** ** Rendering a page for the analyser

    [page.get_pixmap(dpi=200)] belongs to PyMuPDF; the model starts from
    the pixmap it returns: its samples (bytes), height, width and number
    of channels. *)
Record pixmap : Type := mk_pixmap {
  samples : list Z;
  pix_h : nat;
  pix_w : nat;
  pix_n : nat
}.

(** [n] consecutive slices of [k] elements. *)
Fixpoint chunks {A : Type} (k n : nat) (xs : list A) : list (list A) :=
  match n with
  | O => []
  | S n' => firstn k xs :: chunks k n' (skipn k xs)
  end.

(** [np.frombuffer(samples, dtype=np.uint8).reshape(h, w, n)]: the
    reshape raises unless the buffer holds exactly [h * w * n] bytes. *)
Definition np_reshape (buf : list Z) (h w n : nat) : option (list (list (list Z))) :=
  if Nat.eqb (List.length buf) (h * w * n)
  then Some (map (chunks n w) (chunks (w * n) h buf))
  else None.

Fixpoint map_opt {A B : Type} (f : A -> option B) (l : list A) : option (list B) :=
  match l with
  | [] => Some []
  | x :: tl =>
      match f x, map_opt f tl with
      | Some y, Some ys => Some (y :: ys)
      | _, _ => None
      end
  end.

(** One pixel under [cv2.COLOR_RGB2BGR] and [cv2.COLOR_RGBA2BGR]: the
    channels are reversed and the alpha channel dropped. The code applies
    the first only to arrays with a channel count other than 4 and the
    second only to 4-channel arrays. A single-channel array under
    [COLOR_RGB2BGR] is broadcast to three equal channels; other channel
    counts are modelled as raising. *)
Definition px_RGB2BGR (p : list Z) : option (list Z) :=
  match p with
  | [v] => Some [v; v; v]
  | [r; g; b] => Some [b; g; r]
  | _ => None
  end.

Definition px_RGBA2BGR (p : list Z) : option (list Z) :=
  match p with [r; g; b; _] => Some [b; g; r] | _ => None end.

(** [cv2.cvtColor]: raises on an empty image and on an unsupported
    channel count. *)
Definition cv2_cvtColor (f : list Z -> option (list Z)) (img : list (list (list Z)))
  : option (list (list (list Z))) :=
  if Nat.eqb (List.length (List.concat img)) 0 then None
  else map_opt (map_opt f) img.

(** From the pixmap to the image handed to [perform_technical_analysis];
    [None] is an exception, which nothing in [process_document] catches. *)
Definition page_image (pix : pixmap) : option ndarray :=
  match np_reshape (samples pix) (pix_h pix) (pix_w pix) (pix_n pix) with
  | None => None
  | Some img_array =>
      match (if Nat.eqb (pix_n pix) 4
             then cv2_cvtColor px_RGBA2BGR img_array
             else cv2_cvtColor px_RGB2BGR img_array) with
      | Some open_cv_image => Some (Arr3 open_cv_image)
      | None => None
      end
  end.

Fixpoint page_images (pixs : list pixmap) : option (list ndarray) :=
  match pixs with
  | [] => Some []
  | pix :: rest =>
      match page_image pix, page_images rest with
      | Some img, Some imgs => Some (img :: imgs)
      | _, _ => None
      end
  end.

(** The page loop of [process_document] from the rendered pixmaps: the
    final report, or [None] when an exception escapes the loop. *)
Definition process_pixmaps (pixs : list pixmap) : option report :=
  match page_images pixs with
  | Some imgs => Some (process_pages imgs)
  | None => None
  end.

(** A pixmap as PyMuPDF renders a page: RGB or RGBA, at least one pixel,
    and [h * w * n] samples. *)
Definition pixmap_ok (pix : pixmap) : bool :=
  (Nat.eqb (pix_n pix) 3 || Nat.eqb (pix_n pix) 4) &&
  Nat.leb 1 (pix_h pix) && Nat.leb 1 (pix_w pix) &&
  Nat.eqb (List.length (samples pix)) (pix_h pix * pix_w pix * pix_n pix).

(** The samples of an RGBA pixmap without their alpha bytes. *)
Fixpoint drop_alpha (xs : list Z) : list Z :=
  match xs with
  | r :: g :: b :: _ :: rest => r :: g :: b :: drop_alpha rest
  | _ => []
  end.

(** ** Examples *)

Example ex_white : analysis_body (Arr3 [[white; white]; [white; white]]) = Some (BW, 0%Q).
Proof. reflexivity. Qed.
(** [(1 / 3) * 100] is the double [0x4040AAAAAAAAAAAA], one unit in the
    last place below [100 / 3]. *)
Example ex_third :
  analysis_body (Arr3 [[black; white; white]]) =
    Some (BW, (4691249611844266 # 140737488355328)%Q) /\
  round_ratio 100 3 = (4691249611844267 # 140737488355328)%Q.
Proof. split; reflexivity. Qed.
Example ex_loop : process_pages [Arr3 [[white]]; OtherObj; Arr3 [[black]]] = mk_report 3 7 13.
Proof. reflexivity. Qed.

Example ex_page_image :
  page_image (mk_pixmap [1; 2; 3; 4; 5; 6; 7; 8]%Z 1 2 4) = Some (Arr3 [[[3; 2; 1]; [7; 6; 5]]]%Z).
Proof. reflexivity. Qed.

(** ** Pricing *)

Lemma Qle_bool_true (a b : Q) : a <= b -> Qle_bool a b = true.
Proof. apply Qle_bool_iff. Qed.

Lemma Qle_bool_false (a b : Q) : b < a -> Qle_bool a b = false.
Proof.
  intros H. destruct (Qle_bool a b) eqn:E; [|reflexivity].
  apply Qle_bool_iff in E. exfalso. apply (Qlt_not_le b a H E).
Qed.

(** Decide every [Qle_bool] of the goal by a case split on the order. *)
Ltac decide_qle :=
  repeat match goal with
  | |- context [Qle_bool ?a ?b] =>
      let H := fresh "Hq" in
      destruct (Qlt_le_dec b a) as [H|H];
      [rewrite (Qle_bool_false a b H) | rewrite (Qle_bool_true a b H)]
  end.

Lemma tier_branch_cases (c : pyfloat) :
  tier_branch c = (tier1_name, 1, 2) \/ tier_branch c = (tier2_name, 2, 4) \/
  tier_branch c = (tier3_name, 3, 6) \/ tier_branch c = (tier4_name, 4, 9) \/
  tier_branch c = (na_name, 0, 0).
Proof.
  unfold tier_branch.
  destruct (fle (Fin 0) c && fle c (Fin 25)); [tauto|].
  destruct (flt (Fin 25) c && fle c (Fin 50)); [tauto|].
  destruct (flt (Fin 50) c && fle c (Fin 75)); [tauto|].
  destruct (flt (Fin 75) c); tauto.
Qed.

Lemma tier_branch_fin (c : Q) :
  tier_branch (Fin c) =
  if Qlt_le_dec c 0 then (na_name, 0, 0)
  else if Qlt_le_dec 25 c then
         if Qlt_le_dec 50 c then
           if Qlt_le_dec 75 c then (tier4_name, 4, 9) else (tier3_name, 3, 6)
         else (tier2_name, 2, 4)
       else (tier1_name, 1, 2).
Proof.
  unfold tier_branch, fle, flt.
  destruct (Qlt_le_dec c 0) as [H0|H0];
  [|destruct (Qlt_le_dec 25 c) as [H1|H1];
    [destruct (Qlt_le_dec 50 c) as [H2|H2];
     [destruct (Qlt_le_dec 75 c) as [H3|H3]|]|]];
  decide_qle; simpl; first [reflexivity | exfalso; lra].
Qed.

Lemma tier_names_distinct :
  tier1_name <> tier2_name /\ tier1_name <> tier3_name /\ tier1_name <> tier4_name /\
  tier2_name <> tier3_name /\ tier2_name <> tier4_name /\ tier3_name <> tier4_name.
Proof. unfold tier1_name, tier2_name, tier3_name, tier4_name; repeat split; discriminate. Qed.

(** C1: on [0,100] exactly one of the four tiers is assigned; the tiers
    are [0,25], (25,50], (50,75] and (75,100], so each boundary belongs to
    the lower tier; the boundary values give the tiers and final prices of
    the spec's table. *)
Theorem calculate_price_options_partition :
  (forall c : Q, 0 <= c <= 100 ->
     let t := tier_name (calculate_price_options (Fin c)) in
     In t [tier1_name; tier2_name; tier3_name; tier4_name] /\
     (t = tier1_name <-> c <= 25) /\
     (t = tier2_name <-> 25 < c <= 50) /\
     (t = tier3_name <-> 50 < c <= 75) /\
     (t = tier4_name <-> 75 < c <= 100)) /\
  tier_result (Fin 0) = (tier1_name, 2, 3)%Z /\
  tier_result (Fin 25) = (tier1_name, 2, 3)%Z /\
  tier_result (Fin (250001 # 10000)) = (tier2_name, 3, 5)%Z /\
  tier_name (calculate_price_options (Fin 50)) = tier2_name /\
  tier_name (calculate_price_options (Fin 75)) = tier3_name /\
  tier_result (Fin (750001 # 10000)) = (tier4_name, 5, 10)%Z /\
  tier_result (Fin 100) = (tier4_name, 5, 10)%Z.
Proof.
  destruct tier_names_distinct as (D12 & D13 & D14 & D23 & D24 & D34).
  split; [|repeat split; reflexivity].
  intros c [Hlo Hhi] t. subst t.
  unfold calculate_price_options. rewrite tier_branch_fin. simpl.
  destruct (Qlt_le_dec c 0) as [H0|H0]; [exfalso; lra|].
  destruct (Qlt_le_dec 25 c) as [H1|H1];
  [destruct (Qlt_le_dec 50 c) as [H2|H2];
   [destruct (Qlt_le_dec 75 c) as [H3|H3]|]|]; simpl;
  repeat split; (try tauto); (try lra); intros; (try congruence);
  exfalso; lra.
Qed.

(** C2: for every input, the paper price is 1 and each final price is
    the paper price plus the matching ink price. *)
Theorem calculate_price_options_finals (c : pyfloat) :
  let p := calculate_price_options c in
  paper_price p = 1%Z /\
  final_bw_price p = (paper_price p + bw_ink_price p)%Z /\
  final_color_price p = (paper_price p + color_ink_price p)%Z.
Proof.
  unfold calculate_price_options.
  destruct (tier_branch_cases c) as [E|[E|[E|[E|E]]]]; rewrite E;
  repeat split; reflexivity.
Qed.

(** Coverage below zero: a finite negative value or minus infinity. *)
Lemma negative_falls_through (c : pyfloat) :
  flt c (Fin 0) = true -> tier_branch c = (na_name, 0, 0).
Proof.
  intros H. destruct c as [q| | |]; try discriminate.
  - simpl in H. rewrite tier_branch_fin.
    destruct (Qlt_le_dec q 0) as [H0|H0]; [reflexivity|].
    exfalso. rewrite (Qle_bool_true 0 q H0) in H. discriminate.
  - reflexivity.
Qed.

(** C6 (amended): every coverage strictly below 0, minus infinity
    included, falls through to the default ["N/A"] tier with both ink
    prices 0; the final prices are then the paper price alone, 1 and 1.
    No clamping or rejection takes place. *)
Theorem calculate_price_options_negative (c : pyfloat) :
  flt c (Fin 0) = true ->
  calculate_price_options c = mk_pricing 1 na_name 0 0 1 1.
Proof.
  intros H. unfold calculate_price_options.
  rewrite (negative_falls_through c H). reflexivity.
Qed.

Lemma calculate_price_options_negative_witness :
  flt (Fin (-1)) (Fin 0) = true /\
  calculate_price_options (Fin (-1)) = mk_pricing 1 na_name 0 0 1 1.
Proof.
  split; [reflexivity|].
  apply (calculate_price_options_negative (Fin (-1))). reflexivity.
Defined.

(** C6 as stated fails: at coverage -1 the ["N/A"] breakdown does not have
    zero prices, its final prices are 1. *)
Lemma calculate_price_options_negative_not_zero :
  tier_name (calculate_price_options (Fin (-1))) = na_name /\
  ~ (final_bw_price (calculate_price_options (Fin (-1))) = 0%Z /\
     final_color_price (calculate_price_options (Fin (-1))) = 0%Z).
Proof. split; [reflexivity|]. simpl. intros [H _]. discriminate. Qed.

(** C10: for every input, NaN and the infinities included, the color ink
    price is at least the B&W ink price and the final color price at
    least the final B&W price. *)
Theorem calculate_price_options_color_ge_bw (c : pyfloat) :
  let p := calculate_price_options c in
  (bw_ink_price p <= color_ink_price p)%Z /\
  (final_bw_price p <= final_color_price p)%Z.
Proof.
  unfold calculate_price_options.
  destruct (tier_branch_cases c) as [E|[E|[E|[E|E]]]]; rewrite E;
  split; apply Z.leb_le; reflexivity.
Qed.

(** ** Analysis: shape of a split image *)

Lemma split_row_length (row : list (list Z)) (ps : list bgr) :
  split_row row = Some ps -> List.length ps = List.length row.
Proof.
  revert ps. induction row as [|ch tl IH]; intros ps H; simpl in H.
  - injection H as <-. reflexivity.
  - destruct ch as [|b [|g [|r [|x rest]]]]; try discriminate.
    destruct (split_row tl) as [ps'|] eqn:E; [|discriminate].
    injection H as <-. simpl. f_equal. apply IH. reflexivity.
Qed.

Lemma split_rows_shape (rows : list (list (list Z))) (img : list (list bgr)) :
  split_rows rows = Some img ->
  (forall r, In r img -> exists row, In row rows /\ List.length r = List.length row) /\
  match img with
  | [] => True
  | r0 :: _ => exists row0 tl, rows = row0 :: tl /\ List.length r0 = List.length row0
  end.
Proof.
  revert img. induction rows as [|row tl IH]; intros img H; simpl in H.
  - injection H as <-. split; [intros r []|exact I].
  - destruct (split_row row) as [ps|] eqn:E1; [|discriminate].
    destruct (split_rows tl) as [pss|] eqn:E2; [|discriminate].
    injection H as <-.
    destruct (IH pss eq_refl) as [IH1 _].
    apply split_row_length in E1.
    split.
    + intros r [<-|Hr].
      * exists row. split; [left; reflexivity|exact E1].
      * destruct (IH1 r Hr) as (row' & Hin & Hl).
        exists row'. split; [right; exact Hin|exact Hl].
    + exists row, tl. split; [reflexivity|exact E1].
Qed.

(** After a successful [cv2.split] every row has the width of the first. *)
Lemma cv2_split_rect (rows : list (list (list Z))) (img : list (list bgr)) :
  cv2_split rows = Some img ->
  forall r, In r img ->
  List.length r = match img with [] => 0%nat | r0 :: _ => List.length r0 end.
Proof.
  unfold cv2_split.
  set (w := match rows with [] => 0%nat | row :: _ => List.length row end).
  destruct (forallb _ rows) eqn:F; [|discriminate].
  intros S.
  rewrite forallb_forall in F.
  destruct (split_rows_shape rows img S) as [H1 H2].
  assert (Hw : forall r, In r img -> List.length r = w).
  { intros r Hr. destruct (H1 r Hr) as (row & Hin & Hl).
    rewrite Hl. apply Nat.eqb_eq. apply F. exact Hin. }
  intros r Hr. rewrite (Hw r Hr).
  destruct img as [|r0 img']; [destruct Hr|].
  symmetry. apply Hw. left. reflexivity.
Qed.

Lemma length_concat_uniform {A : Type} (l : list (list A)) (w : nat) :
  (forall r, In r l -> List.length r = w) ->
  List.length (List.concat l) = (List.length l * w)%nat.
Proof.
  induction l as [|r tl IH]; intros H; simpl; [reflexivity|].
  rewrite length_app, (H r (or_introl eq_refl)), IH; [reflexivity|].
  intros r' Hr'. apply H. right. exact Hr'.
Qed.

(** [height * width] of an image mapped pixel-wise is its pixel count. *)
Lemma total_pixels_count {A B C : Type} (f : A -> B) (g : B -> C)
      (img : list (list A)) :
  (forall r, In r img ->
     List.length r = match img with [] => 0%nat | r0 :: _ => List.length r0 end) ->
  (List.length (map (map g) (map (map f) img)) *
   match map (map g) (map (map f) img) with
   | [] => 0%nat | row :: _ => List.length row end)%nat =
  List.length (List.concat img).
Proof.
  intros H. rewrite (length_concat_uniform img _ H).
  destruct img as [|r0 img']; simpl; [reflexivity|].
  rewrite !length_map. reflexivity.
Qed.

Lemma count_nonzero_map {A : Type} (f : A -> Z) (l : list A) :
  count_nonzero (map f l) = List.length (filter (fun x => negb (f x =? 0)%Z) l).
Proof.
  unfold count_nonzero. induction l as [|x tl IH]; simpl; [reflexivity|].
  destruct (negb (f x =? 0)%Z); simpl; rewrite ?IH; reflexivity.
Qed.

Lemma filter_length_pos {A : Type} (p : A -> bool) (l : list A) :
  (0 < List.length (filter p l))%nat <-> exists x, In x l /\ p x = true.
Proof.
  induction l as [|x tl IH]; simpl.
  - split; [lia|intros (y & [] & _)].
  - destruct (p x) eqn:E; simpl.
    + split; [intros _; exists x; split; [left; reflexivity|exact E]|lia].
    + rewrite IH. split.
      * intros (y & Hy & Py). exists y. split; [right; exact Hy|exact Py].
      * intros (y & [<-|Hy] & Py); [congruence|exists y; split; assumption].
Qed.

(** The threshold keeps exactly the pixels of luminance at most [240]. *)
Lemma thresh_240_nonzero (v : Z) :
  negb (thresh_binary_inv 240 255 v =? 0)%Z = (v <=? 240)%Z.
Proof.
  unfold thresh_binary_inv.
  destruct (v >? 240)%Z eqn:E; destruct (v <=? 240)%Z eqn:E'; try reflexivity;
  rewrite ?Z.gtb_lt, ?Z.gtb_ltb, ?Z.leb_le, ?Z.leb_gt in *; lia.
Qed.

(** ** Rounding of the coverage *)

Lemma round_ratio_0 (d : Z) : round_ratio 0 d = 0.
Proof. reflexivity. Qed.

Lemma round_ratio_same (n : Z) : (0 < n)%Z -> round_ratio n n = round_ratio 1 1.
Proof.
  intros Hn. unfold round_ratio at 1, flog2_ratio.
  replace (n =? 0)%Z with false by (symmetry; apply Z.eqb_neq; lia).
  rewrite Z.sub_diag. cbv zeta.
  replace (n * 2 ^ Z.max 0 0 <=? n * 2 ^ Z.max 0 (- 0))%Z with true
    by (symmetry; apply Z.leb_le; simpl; lia).
  change (Z.max (0 - 52) (-1074)) with (-52)%Z.
  change (Z.max 0 (- -52)) with 52%Z. change (Z.max 0 (-52)) with 0%Z.
  rewrite ?Z.pow_0_r, !Z.mul_1_r.
  idtac.
  rewrite (Z.mul_comm n), Z.div_mul, Z.mod_mul by lia.
  replace (2 * 0 <? n)%Z with true by (symmetry; apply Z.ltb_lt; lia).
  reflexivity.
Qed.

Lemma round_ratio_nonneg (n d : Z) : (0 <= n)%Z -> (0 < d)%Z -> 0 <= round_ratio n d.
Proof.
  intros Hn Hd. unfold round_ratio.
  destruct (n =? 0)%Z; [apply Qle_refl|]. cbv zeta.
  set (e := Z.max (flog2_ratio n d - 52) (-1074)).
  set (num := (n * 2 ^ Z.max 0 (- e))%Z).
  set (den := (d * 2 ^ Z.max 0 e)%Z).
  assert (P1 : (0 < 2 ^ Z.max 0 e)%Z) by (apply Z.pow_pos_nonneg; lia).
  assert (P2 : (0 < 2 ^ Z.max 0 (- e))%Z) by (apply Z.pow_pos_nonneg; lia).
  assert (Hden : (0 < den)%Z) by (unfold den; nia).
  assert (Hq : (0 <= num / den)%Z).
  { apply Z.div_pos; [|exact Hden]. unfold num. nia. }
  pose proof (Z.mod_pos_bound (num / den) 2 ltac:(lia)).
  assert (Hm : forall m, (0 <= m)%Z ->
                 0 <= (m * 2 ^ Z.max 0 e)%Z # Z.to_pos (2 ^ Z.max 0 (- e))).
  { intros m Hm. unfold Qle. cbn [Qnum Qden]. nia. }
  apply Hm.
  destruct (2 * (num mod den) <? den)%Z; [|destruct (den <? 2 * (num mod den))%Z]; lia.
Qed.

Lemma flog2_ratio_lower (n d : Z) :
  (0 < n)%Z -> (0 < d)%Z -> (0 <= flog2_ratio n d)%Z ->
  (d * 2 ^ flog2_ratio n d <= n)%Z.
Proof.
  intros Hn Hd. unfold flog2_ratio. cbv zeta.
  destruct (Z.leb_spec (d * 2 ^ Z.max 0 (Z.log2 n - Z.log2 d))
                        (n * 2 ^ Z.max 0 (- (Z.log2 n - Z.log2 d)))) as [H|H]; intros Hk.
  - rewrite Z.max_r in H by lia. rewrite Z.max_l in H by lia.
    rewrite Z.pow_0_r, Z.mul_1_r in H. exact H.
  - pose proof (Z.log2_spec n Hn) as [Ln _].
    pose proof (Z.log2_spec d Hd) as [_ Ld].
    pose proof (Z.log2_nonneg d).
    assert (E : (2 ^ Z.succ (Z.log2 d) * 2 ^ (Z.log2 n - Z.log2 d - 1) = 2 ^ Z.log2 n)%Z).
    { rewrite <- Z.pow_add_r by lia. f_equal. lia. }
    assert (P : (0 < 2 ^ (Z.log2 n - Z.log2 d - 1))%Z) by (apply Z.pow_pos_nonneg; lia).
    nia.
Qed.

(** The rounded value of a quotient at most [B] is at most [B], for an
    integer [B] below [2^53]. *)
Lemma round_ratio_le (n d B : Z) :
  (0 <= n)%Z -> (0 < d)%Z -> (1 <= B < 2 ^ 53)%Z -> (n <= B * d)%Z ->
  round_ratio n d <= inject_Z B.
Proof.
  intros Hn Hd HB Hle. unfold round_ratio.
  destruct (Z.eqb_spec n 0) as [->|Hn0].
  { change 0 with (inject_Z 0). rewrite <- Zle_Qle. lia. }
  cbv zeta.
  set (f := flog2_ratio n d).
  assert (Hf : (f <= 52)%Z).
  { destruct (Z.le_gt_cases f 52) as [H|H]; [exact H|exfalso].
    pose proof (flog2_ratio_lower n d ltac:(lia) Hd ltac:(fold f; lia)) as L. fold f in L.
    assert (Hp : (2 ^ 53 <= 2 ^ f)%Z) by (apply Z.pow_le_mono_r; lia).
    nia. }
  set (e := Z.max (f - 52) (-1074)).
  assert (He : (e <= 0)%Z) by (unfold e; lia).
  replace (Z.max 0 e) with 0%Z by lia.
  set (s := Z.max 0 (- e)).
  assert (Hs : (0 <= s)%Z) by (unfold s; lia).
  assert (P : (0 < 2 ^ s)%Z) by (apply Z.pow_pos_nonneg; lia).
  rewrite Z.pow_0_r, !Z.mul_1_r.
  set (num := (n * 2 ^ s)%Z).
  pose proof (Z.div_mod num d ltac:(lia)) as Dm.
  pose proof (Z.mod_pos_bound num d Hd) as Mb.
  set (q := (num / d)%Z) in *. set (r := (num mod d)%Z) in *.
  pose proof (Z.mod_pos_bound q 2 ltac:(lia)).
  assert (Hnum : (num <= B * 2 ^ s * d)%Z) by (unfold num; nia).
  assert (Hq : (q <= B * 2 ^ s)%Z) by nia.
  unfold Qle. simpl. rewrite Z2Pos.id by exact P. rewrite Z.mul_1_r.
  destruct (Z.eq_dec q (B * 2 ^ s)) as [Eq|Nq].
  - assert (Er : r = 0%Z) by nia. rewrite Er.
    destruct (Z.ltb_spec 0 d); lia.
  - repeat match goal with |- context [if ?c then _ else _] => destruct c end; lia.
Qed.

(** [analysis_body] on an array that [cv2.split] accepts, with the counts
    read off the pixels. *)
Lemma analysis_body_split (rows : list (list (list Z))) (img : list (list bgr)) :
  cv2_split rows = Some img ->
  analysis_body (Arr3 rows) =
  if Nat.eqb (List.length (List.concat img)) 0 then None
  else Some (if (0 <? count_nonzero
                        (map (fun p => sub_u8 (px_g p) (px_r p)) (List.concat img)))%nat
             then Color else BW,
             py_mul (py_truediv (Z.of_nat (List.length
                (filter (fun p => bgr2gray p <=? 240)%Z (List.concat img))))
              (Z.of_nat (List.length (List.concat img)))) 100).
Proof.
  intros S. unfold analysis_body. rewrite S. cbv zeta.
  rewrite (total_pixels_count bgr2gray (thresh_binary_inv 240 255) img
             (cv2_split_rect rows img S)).
  rewrite <- concat_map, <- concat_map, map_map.
  rewrite (count_nonzero_map (fun x => thresh_binary_inv 240 255 (bgr2gray x))).
  erewrite filter_ext; [reflexivity|].
  intros p. apply thresh_240_nonzero.
Qed.

Lemma analysis_body_some (rows : list (list (list Z))) (d : string) (cov : Q) :
  analysis_body (Arr3 rows) = Some (d, cov) ->
  exists img, cv2_split rows = Some img /\ List.concat img <> [] /\
  analysis_body (Arr3 rows) =
  Some (if (0 <? count_nonzero
                   (map (fun p => sub_u8 (px_g p) (px_r p)) (List.concat img)))%nat
        then Color else BW,
        py_mul (py_truediv (Z.of_nat (List.length
                (filter (fun p => bgr2gray p <=? 240)%Z (List.concat img))))
              (Z.of_nat (List.length (List.concat img)))) 100).
Proof.
  intros H.
  destruct (cv2_split rows) as [img|] eqn:S.
  - exists img. rewrite (analysis_body_split rows img S) in *.
    destruct (Nat.eqb (List.length (List.concat img)) 0) eqn:E; [discriminate|].
    split; [reflexivity|split; [|reflexivity]].
    intros Hn. rewrite Hn in E. discriminate.
  - unfold analysis_body in H. rewrite S in H. discriminate.
Qed.

Lemma dict_coverage (a : ndarray) (cov : Q) :
  dict_get "coverage_percentage" (perform_technical_analysis a) = Some (VFloat (Fin cov)) ->
  exists d, analysis_body a = Some (d, cov).
Proof.
  unfold perform_technical_analysis.
  destruct (analysis_body a) as [[d c]|]; simpl; intros H; [|discriminate].
  injection H as <-. exists d. reflexivity.
Qed.

(** C3 (amended): the threshold [cv2.threshold(gray, 240, 255,
    THRESH_BINARY_INV)] keeps a pixel as ink exactly when its luminance
    (the [COLOR_BGR2GRAY] value) is at most 240 (only luminance above 240
    counts as blank paper), and a successful analysis reports coverage
    (ink pixels / all pixels) * 100, evaluated in Python floats. *)
Theorem perform_technical_analysis_coverage (rows : list (list (list Z))) (cov : Q) :
  dict_get "coverage_percentage" (perform_technical_analysis (Arr3 rows))
    = Some (VFloat (Fin cov)) ->
  (forall v, thresh_binary_inv 240 255 v <> 0%Z <-> (v <= 240)%Z) /\
  exists img, cv2_split rows = Some img /\ List.concat img <> [] /\
  cov = py_mul (py_truediv (Z.of_nat (List.length
                (filter (fun p => bgr2gray p <=? 240)%Z (List.concat img))))
              (Z.of_nat (List.length (List.concat img)))) 100.
Proof.
  intros H. split.
  - intros v. unfold thresh_binary_inv.
    destruct (v >? 240)%Z eqn:E; rewrite Z.gtb_ltb in E; rewrite ?Z.ltb_lt, ?Z.ltb_ge in E;
    split; intros; lia.
  - destruct (dict_coverage _ _ H) as [d Hd].
    destruct (analysis_body_some rows d cov Hd) as (img & S & Hn & E).
    exists img. split; [exact S|split; [exact Hn|]].
    rewrite Hd in E. injection E as _ <-. reflexivity.
Qed.

Lemma perform_technical_analysis_coverage_witness :
  dict_get "coverage_percentage"
    (perform_technical_analysis (Arr3 [[[240; 240; 240]; white]]%Z))
    = Some (VFloat (Fin (py_mul (py_truediv 1 2) 100))) /\
  ((forall v, thresh_binary_inv 240 255 v <> 0%Z <-> (v <= 240)%Z) /\
   exists img, cv2_split [[[240; 240; 240]; white]]%Z = Some img /\ List.concat img <> [] /\
   py_mul (py_truediv 1 2) 100 =
   py_mul (py_truediv (Z.of_nat (List.length
                (filter (fun p => bgr2gray p <=? 240)%Z (List.concat img))))
              (Z.of_nat (List.length (List.concat img)))) 100).
Proof.
  split; [reflexivity|].
  apply (perform_technical_analysis_coverage [[[240; 240; 240]; white]]%Z).
  reflexivity.
Defined.

(** C3 as stated fails: a pixel of luminance exactly 240 is counted as
    ink, so a one-pixel page of luminance 240 has coverage 100, not 0. *)
Lemma perform_technical_analysis_240_is_ink :
  bgr2gray (mk_bgr 240 240 240) = 240%Z /\
  exists cov,
    dict_get "coverage_percentage"
      (perform_technical_analysis (Arr3 [[[240; 240; 240]]]%Z))
      = Some (VFloat (Fin cov)) /\ cov == 100.
Proof.
  split; [reflexivity|].
  eexists. split; [reflexivity|]. reflexivity.
Qed.

Lemma sub_u8_zero (g r : Z) :
  (0 <= g < 256)%Z -> (0 <= r < 256)%Z -> (sub_u8 g r =? 0)%Z = (g =? r)%Z.
Proof.
  intros Hg Hr. unfold sub_u8.
  destruct (g =? r)%Z eqn:E.
  - apply Z.eqb_eq in E. subst. rewrite Z.sub_diag. reflexivity.
  - apply Z.eqb_neq in E. apply Z.eqb_neq. intros H.
    pose proof (Z.div_mod (g - r) 256) as D.
    pose proof (Z.mod_pos_bound (g - r) 256) as B.
    rewrite H in D. lia.
Qed.

Lemma Color_neq_BW : Color <> BW.
Proof. unfold Color, BW. discriminate. Qed.

Lemma dict_doc_type (a : ndarray) :
  dict_get "original_doc_type" (perform_technical_analysis a) =
  match analysis_body a with Some (d, _) => Some (VStr d) | None => None end.
Proof.
  unfold perform_technical_analysis.
  destruct (analysis_body a) as [[d c]|]; reflexivity.
Qed.

(** C4: on an 8-bit, three-channel, non-empty image the page is ["Color"]
    exactly when some pixel has a green value different from its red
    value, and ["B&W"] exactly when every pixel has equal green and red. *)
Theorem perform_technical_analysis_color
    (rows : list (list (list Z))) (img : list (list bgr)) :
  cv2_split rows = Some img ->
  List.concat img <> [] ->
  (forall p, In p (List.concat img) ->
     (0 <= px_g p < 256)%Z /\ (0 <= px_r p < 256)%Z) ->
  exists d,
    dict_get "original_doc_type" (perform_technical_analysis (Arr3 rows)) = Some (VStr d) /\
    (d = Color <-> exists p, In p (List.concat img) /\ px_g p <> px_r p) /\
    (d = BW <-> forall p, In p (List.concat img) -> px_g p = px_r p).
Proof.
  intros S Hn Hu.
  rewrite dict_doc_type, (analysis_body_split rows img S).
  destruct (Nat.eqb (List.length (List.concat img)) 0) eqn:E0.
  { apply Nat.eqb_eq, length_zero_iff_nil in E0. contradiction. }
  eexists. split; [reflexivity|].
  rewrite count_nonzero_map.
  assert (Hex : (0 < List.length (filter (fun p => negb (sub_u8 (px_g p) (px_r p) =? 0)%Z)
                                      (List.concat img)))%nat <->
                exists p, In p (List.concat img) /\ px_g p <> px_r p).
  { rewrite filter_length_pos. split.
    - intros (p & Hp & Pp). exists p. split; [exact Hp|].
      destruct (Hu p Hp) as [Hg Hr].
      rewrite (sub_u8_zero _ _ Hg Hr), negb_true_iff, Z.eqb_neq in Pp. exact Pp.
    - intros (p & Hp & Pp). exists p. split; [exact Hp|].
      destruct (Hu p Hp) as [Hg Hr].
      rewrite (sub_u8_zero _ _ Hg Hr), negb_true_iff, Z.eqb_neq. exact Pp. }
  destruct (0 <? _)%nat eqn:E.
  - apply Nat.ltb_lt, Hex in E. destruct E as (p & Hp & Pp).
    split; split; intros H.
    + exists p. split; assumption.
    + reflexivity.
    + exfalso. apply Color_neq_BW. exact H.
    + exfalso. apply Pp. apply H. exact Hp.
  - apply Nat.ltb_ge in E.
    assert (Hall : forall p, In p (List.concat img) -> px_g p = px_r p).
    { intros p Hp. destruct (Z.eq_dec (px_g p) (px_r p)) as [Eq|Ne]; [exact Eq|].
      exfalso. assert (L : (0 < List.length (filter (fun p => negb (sub_u8 (px_g p) (px_r p) =? 0)%Z)
                                      (List.concat img)))%nat)
        by (apply Hex; exists p; split; assumption).
      lia. }
    split; split; intros H.
    + exfalso. apply Color_neq_BW. symmetry. exact H.
    + destruct H as (p & Hp & Pp). exfalso. apply Pp, Hall, Hp.
    + exact Hall.
    + reflexivity.
Qed.

Lemma perform_technical_analysis_color_witness :
  cv2_split [[[10; 20; 20]; [10; 30; 40]]]%Z = Some [[mk_bgr 10 20 20; mk_bgr 10 30 40]]%Z /\
  exists d,
    dict_get "original_doc_type"
      (perform_technical_analysis (Arr3 [[[10; 20; 20]; [10; 30; 40]]]%Z)) = Some (VStr d) /\
    (d = Color <-> exists p, In p (List.concat [[mk_bgr 10 20 20; mk_bgr 10 30 40]]%Z) /\
                        px_g p <> px_r p) /\
    (d = BW <-> forall p, In p (List.concat [[mk_bgr 10 20 20; mk_bgr 10 30 40]]%Z) ->
                     px_g p = px_r p).
Proof.
  split; [reflexivity|].
  apply (perform_technical_analysis_color [[[10; 20; 20]; [10; 30; 40]]]%Z
           [[mk_bgr 10 20 20; mk_bgr 10 30 40]]%Z).
  - reflexivity.
  - discriminate.
  - intros p Hp. simpl in Hp.
    destruct Hp as [<-|[<-|[]]]; simpl; lia.
Defined.

Lemma filter_all_false {A : Type} (p : A -> bool) (l : list A) :
  (forall x, In x l -> p x = false) -> filter p l = [].
Proof.
  induction l as [|x tl IH]; intros H; simpl; [reflexivity|].
  rewrite (H x (or_introl eq_refl)). apply IH.
  intros y Hy. apply H. right. exact Hy.
Qed.

Lemma filter_all_true {A : Type} (p : A -> bool) (l : list A) :
  (forall x, In x l -> p x = true) -> filter p l = l.
Proof.
  induction l as [|x tl IH]; intros H; simpl; [reflexivity|].
  rewrite (H x (or_introl eq_refl)), IH; [reflexivity|].
  intros y Hy. apply H. right. exact Hy.
Qed.

(** C8: on a non-empty three-channel image, all pixels of luminance 255
    (white) give coverage 0 and all pixels of luminance 0 (black) give
    coverage 100. *)
Theorem perform_technical_analysis_white_black
    (rows : list (list (list Z))) (img : list (list bgr)) :
  cv2_split rows = Some img ->
  List.concat img <> [] ->
  ((forall p, In p (List.concat img) -> bgr2gray p = 255%Z) ->
   exists cov, dict_get "coverage_percentage" (perform_technical_analysis (Arr3 rows))
                 = Some (VFloat (Fin cov)) /\ cov == 0) /\
  ((forall p, In p (List.concat img) -> bgr2gray p = 0%Z) ->
   exists cov, dict_get "coverage_percentage" (perform_technical_analysis (Arr3 rows))
                 = Some (VFloat (Fin cov)) /\ cov == 100).
Proof.
  intros S Hn.
  unfold perform_technical_analysis. rewrite (analysis_body_split rows img S).
  destruct (Nat.eqb (List.length (List.concat img)) 0) eqn:E0.
  { apply Nat.eqb_eq, length_zero_iff_nil in E0. contradiction. }
  apply Nat.eqb_neq in E0.
  split; intros Hl; eexists; (split; [reflexivity|]).
  - rewrite filter_all_false.
    + reflexivity.
    + intros p Hp. rewrite (Hl p Hp). reflexivity.
  - rewrite filter_all_true.
    + unfold py_truediv. rewrite round_ratio_same by lia.
      vm_compute. reflexivity.
    + intros p Hp. rewrite (Hl p Hp). reflexivity.
Qed.

Lemma perform_technical_analysis_white_black_witness :
  cv2_split [[white; white]; [white; white]] =
    Some [[mk_bgr 255 255 255; mk_bgr 255 255 255];
          [mk_bgr 255 255 255; mk_bgr 255 255 255]]%Z /\
  exists cov, dict_get "coverage_percentage"
                (perform_technical_analysis (Arr3 [[white; white]; [white; white]]))
              = Some (VFloat (Fin cov)) /\ cov == 0.
Proof.
  split; [reflexivity|].
  apply (perform_technical_analysis_white_black [[white; white]; [white; white]]
           [[mk_bgr 255 255 255; mk_bgr 255 255 255];
            [mk_bgr 255 255 255; mk_bgr 255 255 255]]%Z).
  - reflexivity.
  - discriminate.
  - intros p Hp. simpl in Hp.
    destruct Hp as [<-|[<-|[<-|[<-|[]]]]]; reflexivity.
Defined.

(** ** The page loop *)

Lemma page_loop_app (l1 l2 : list ndarray) (acc : Z * Z) :
  page_loop (l1 ++ l2) acc = page_loop l2 (page_loop l1 acc).
Proof.
  revert acc. induction l1 as [|img tl IH]; intros acc; simpl; [reflexivity|].
  apply IH.
Qed.

Lemma page_step_failed (acc : Z * Z) (img : ndarray) :
  analysis_body img = None -> page_step acc img = acc.
Proof.
  intros H. unfold page_step, perform_technical_analysis. rewrite H. reflexivity.
Qed.

(** A page whose analysis fails adds nothing to the grand totals. *)
Lemma process_pages_skip_failed (pre post : list ndarray) (img : ndarray) :
  analysis_body img = None ->
  grand_total_bw (process_pages (pre ++ img :: post)) =
    grand_total_bw (process_pages (pre ++ post)) /\
  grand_total_color (process_pages (pre ++ img :: post)) =
    grand_total_color (process_pages (pre ++ post)).
Proof.
  intros H. unfold process_pages.
  rewrite !page_loop_app. cbn [page_loop]. rewrite !(page_step_failed _ _ H).
  destruct (page_loop post (page_loop pre (0%Z, 0%Z))) as [bw col].
  split; reflexivity.
Qed.

(** ** Further properties of the code *)

Lemma coverage_ratio_bounds (a b : nat) :
  (a <= b)%nat -> b <> 0%nat ->
  0 <= py_mul (py_truediv (Z.of_nat a) (Z.of_nat b)) 100 <= 100.
Proof.
  intros Hab Hb. unfold py_truediv, py_mul.
  set (x := round_ratio (Z.of_nat a) (Z.of_nat b)).
  assert (X0 : 0 <= x) by (apply round_ratio_nonneg; lia).
  assert (X1 : x <= inject_Z 1) by (apply round_ratio_le; lia).
  unfold Qle in X0, X1. cbn [Qnum Qden inject_Z] in X0, X1.
  split.
  - apply round_ratio_nonneg; lia.
  - apply (round_ratio_le _ _ 100); lia.
Qed.

(** X1: a successful analysis reports a coverage between 0 and 100. *)
Theorem analysis_coverage_range (a : ndarray) (d : string) (cov : Q) :
  analysis_body a = Some (d, cov) -> 0 <= cov <= 100.
Proof.
  intros H. destruct a as [rows|]; [|discriminate].
  destruct (analysis_body_some rows d cov H) as (img & S & Hn & E).
  rewrite H in E. injection E as _ ->.
  apply coverage_ratio_bounds.
  - apply filter_length_le.
  - intros Hz. apply length_zero_iff_nil in Hz. contradiction.
Qed.

Lemma analysis_coverage_range_witness :
  analysis_body (Arr3 [[white; black]]) = Some (BW, py_mul (py_truediv 1 2) 100) /\
  0 <= py_mul (py_truediv 1 2) 100 <= 100.
Proof.
  split; [reflexivity|].
  apply (analysis_coverage_range (Arr3 [[white; black]]) BW). reflexivity.
Defined.

(** The final prices of a coverage in [0, +oo): one of the four tiers. *)
Lemma finals_nonneg (c : Q) :
  0 <= c ->
  let p := calculate_price_options (Fin c) in
  (final_bw_price p, final_color_price p) = (2, 3)%Z \/
  (final_bw_price p, final_color_price p) = (3, 5)%Z \/
  (final_bw_price p, final_color_price p) = (4, 7)%Z \/
  (final_bw_price p, final_color_price p) = (5, 10)%Z.
Proof.
  intros H0 p. subst p. unfold calculate_price_options. rewrite tier_branch_fin.
  destruct (Qlt_le_dec c 0); [exfalso; lra|].
  repeat match goal with |- context [Qlt_le_dec ?a ?b] => destruct (Qlt_le_dec a b) end;
  tauto.
Qed.

(** X2: every page whose analysis succeeds is priced in one of the four
    tiers, never in the ["N/A"] default. *)
Theorem analysed_page_has_tier (a : ndarray) (d : string) (cov : Q) :
  analysis_body a = Some (d, cov) ->
  In (tier_name (calculate_price_options (Fin cov)))
     [tier1_name; tier2_name; tier3_name; tier4_name].
Proof.
  intros H. destruct (analysis_coverage_range a d cov H) as [H0 _].
  unfold calculate_price_options. rewrite tier_branch_fin.
  destruct (Qlt_le_dec cov 0); [exfalso; lra|].
  repeat match goal with |- context [Qlt_le_dec ?a ?b] => destruct (Qlt_le_dec a b) end;
  simpl; tauto.
Qed.

Lemma analysed_page_has_tier_witness :
  analysis_body (Arr3 [[black]]) = Some (BW, py_mul (py_truediv 1 1) 100) /\
  In (tier_name (calculate_price_options (Fin (py_mul (py_truediv 1 1) 100))))
     [tier1_name; tier2_name; tier3_name; tier4_name].
Proof.
  split; [reflexivity|].
  apply (analysed_page_has_tier (Arr3 [[black]]) BW). reflexivity.
Defined.

(** X3: the final prices never decrease as the coverage grows. *)
Theorem calculate_price_options_monotone (c1 c2 : Q) :
  c1 <= c2 ->
  (final_bw_price (calculate_price_options (Fin c1))
     <= final_bw_price (calculate_price_options (Fin c2)))%Z /\
  (final_color_price (calculate_price_options (Fin c1))
     <= final_color_price (calculate_price_options (Fin c2)))%Z.
Proof.
  intros H. unfold calculate_price_options. rewrite !tier_branch_fin.
  repeat match goal with |- context [Qlt_le_dec ?a ?b] => destruct (Qlt_le_dec a b) end;
  first [split; apply Z.leb_le; reflexivity | exfalso; lra].
Qed.

Lemma calculate_price_options_monotone_witness :
  20 <= 60 /\
  (final_bw_price (calculate_price_options (Fin 20))
     <= final_bw_price (calculate_price_options (Fin 60)))%Z /\
  (final_color_price (calculate_price_options (Fin 20))
     <= final_color_price (calculate_price_options (Fin 60)))%Z.
Proof.
  split; [apply Qle_bool_iff; reflexivity|].
  apply calculate_price_options_monotone. apply Qle_bool_iff. reflexivity.
Defined.

(** X4: any coverage above 75, however large, plus infinity included, is
    priced in Tier 4 (final prices 5 and 10): coverage is not capped at
    100. *)
Theorem calculate_price_options_above_75 (c : pyfloat) :
  flt (Fin 75) c = true -> calculate_price_options c = mk_pricing 1 tier4_name 4 9 5 10.
Proof.
  intros H. destruct c as [q| | |]; try discriminate.
  - simpl in H. apply negb_true_iff in H.
    assert (Hq : 75 < q).
    { destruct (Qlt_le_dec 75 q) as [Hq|Hq]; [exact Hq|].
      rewrite (Qle_bool_true q 75 Hq) in H. discriminate. }
    unfold calculate_price_options. rewrite tier_branch_fin.
    repeat match goal with |- context [Qlt_le_dec ?a ?b] => destruct (Qlt_le_dec a b) end;
    first [reflexivity | exfalso; lra].
  - reflexivity.
Qed.

Lemma calculate_price_options_above_75_witness :
  flt (Fin 75) (Fin 250) = true /\
  calculate_price_options (Fin 250) = mk_pricing 1 tier4_name 4 9 5 10.
Proof.
  split; [reflexivity|]. apply calculate_price_options_above_75. reflexivity.
Defined.

Lemma page_step_cases (acc : Z * Z) (img : ndarray) :
  (analysis_body img = None /\ page_step acc img = acc) \/
  exists d c, analysis_body img = Some (d, c) /\
    page_step acc img =
      (fst acc + final_bw_price (calculate_price_options (Fin c)),
       snd acc + final_color_price (calculate_price_options (Fin c)))%Z.
Proof.
  unfold page_step, perform_technical_analysis.
  destruct (analysis_body img) as [[d c]|] eqn:E.
  - right. exists d, c. split; reflexivity.
  - left. split; reflexivity.
Qed.

Lemma page_loop_bounds (pages : list ndarray) (bw0 col0 : Z) :
  let k := Z.of_nat (pages_analysed pages) in
  let '(bw, col) := page_loop pages (bw0, col0) in
  (2 * k <= bw - bw0 <= 5 * k)%Z /\
  (bw - bw0 + k <= col - col0 <= 10 * k)%Z.
Proof.
  revert bw0 col0. induction pages as [|img rest IH]; intros bw0 col0; simpl.
  - lia.
  - unfold pages_analysed in *. simpl.
    destruct (page_step_cases (bw0, col0) img) as [[E S]|(d & c & E & S)];
      rewrite E, S; simpl.
    + apply IH.
    + specialize (IH (bw0 + final_bw_price (calculate_price_options (Fin c)))%Z
                     (col0 + final_color_price (calculate_price_options (Fin c)))%Z).
      destruct (analysis_coverage_range img d c E) as [H0 _].
      destruct (page_loop rest _) as [bw col].
      rewrite ?Nat2Z.inj_succ, ?Zpos_P_of_succ_nat.
      destruct (finals_nonneg c H0) as [F|[F|[F|F]]]; injection F as F1 F2;
      rewrite F1, F2 in IH; lia.
Qed.

(** X5: with k the number of pages whose analysis succeeds, the grand
    totals satisfy 2k <= B&W <= 5k and B&W + k <= color <= 10k; in
    particular a document whose pages all fail has totals 0. *)
Theorem process_pages_total_bounds (pages : list ndarray) :
  let r := process_pages pages in
  let k := Z.of_nat (pages_analysed pages) in
  (2 * k <= grand_total_bw r <= 5 * k)%Z /\
  (grand_total_bw r + k <= grand_total_color r <= 10 * k)%Z.
Proof.
  pose proof (page_loop_bounds pages 0 0) as H. simpl in H |- *.
  unfold process_pages.
  destruct (page_loop pages (0%Z, 0%Z)) as [bw col]. simpl. lia.
Qed.

Lemma page_loop_shift (pages : list ndarray) (a b : Z) :
  page_loop pages (a, b) =
  (a + fst (page_loop pages (0%Z, 0%Z)), b + snd (page_loop pages (0%Z, 0%Z)))%Z.
Proof.
  revert a b.
  assert (G : forall a b a' b', page_loop pages (a + a', b + b')%Z =
            (a + fst (page_loop pages (a', b')), b + snd (page_loop pages (a', b')))%Z).
  { induction pages as [|img rest IH]; intros a b a' b'; simpl; [reflexivity|].
    destruct (page_step_cases (a + a', b + b')%Z img) as [[E S]|(d & c & E & S)];
    rewrite S; unfold page_step, perform_technical_analysis; rewrite E; simpl.
    - apply IH.
    - rewrite <- !Z.add_assoc. apply IH. }
  intros a b. rewrite <- (G a b 0 0)%Z, !Z.add_0_r. reflexivity.
Qed.

(** X6: the grand totals of two runs of pages put one after the other are
    the sums of the grand totals of each run. *)
Theorem process_pages_app (l1 l2 : list ndarray) :
  grand_total_bw (process_pages (l1 ++ l2)) =
    (grand_total_bw (process_pages l1) + grand_total_bw (process_pages l2))%Z /\
  grand_total_color (process_pages (l1 ++ l2)) =
    (grand_total_color (process_pages l1) + grand_total_color (process_pages l2))%Z.
Proof.
  unfold process_pages. rewrite page_loop_app.
  destruct (page_loop l1 (0%Z, 0%Z)) as [a b] eqn:E1.
  rewrite page_loop_shift.
  destruct (page_loop l2 (0%Z, 0%Z)) as [c d]. simpl. split; reflexivity.
Qed.

(** ** The PDF path *)

Lemma string_app_assoc (a b c : string) :
  String.append a (String.append b c) = String.append (String.append a b) c.
Proof. induction a as [|x a IH]; simpl; [reflexivity|]. rewrite IH. reflexivity. Qed.

Lemma prefix_app_dot (p : string) :
  ~ In "."%char (list_ascii_of_string p) ->
  forall r t, String.prefix p (String.append r (String "." t)) = String.prefix p r.
Proof.
  induction p as [|a p IH]; intros Hp r t; [destruct r; reflexivity|].
  destruct r as [|b r]; simpl.
  - destruct (Ascii.ascii_dec a "."%char) as [E|E]; [|reflexivity].
    exfalso. apply Hp. left. exact E.
  - destruct (Ascii.ascii_dec a b); [|reflexivity].
    apply IH. intros H. apply Hp. right. exact H.
Qed.

Lemma prefix_cons (a b : ascii) (p s : string) :
  String.prefix (String a p) (String b s) =
  match Ascii.ascii_dec a b with left _ => String.prefix p s | right _ => false end.
Proof. reflexivity. Qed.

(** ".docx" has no border, so no match straddles a string and a
    following ".docx". *)
Lemma prefix_docx_app (t : string) :
  t <> EmptyString ->
  String.prefix ".docx" (String.append t ".docx") = String.prefix ".docx" t.
Proof.
  intros Ht. destruct t as [|c r]; [contradiction|].
  change (String.append (String c r) ".docx") with (String c (String.append r ".docx")).
  rewrite !prefix_cons.
  destruct (Ascii.ascii_dec "."%char c); [|reflexivity].
  apply prefix_app_dot. simpl. intuition discriminate.
Qed.

Lemma prefix_length (p s : string) :
  String.prefix p s = true -> (String.length p <= String.length s)%nat.
Proof.
  revert s. induction p as [|a p IH]; intros s H; simpl; [lia|].
  destruct s as [|b s]; simpl in H; [discriminate|].
  destruct (Ascii.ascii_dec a b); [|discriminate]. simpl. apply IH in H. lia.
Qed.

Lemma replace_from_0 (old new : string) (c : ascii) (rest : string) :
  replace_from old new 0 (String c rest) =
  if String.prefix old (String c rest)
  then String.append new (replace_from old new (String.length old - 1) rest)
  else String c (replace_from old new 0 rest).
Proof. reflexivity. Qed.

Lemma replace_docx_app (s : string) (k : nat) :
  (k <= String.length s)%nat ->
  replace_from ".docx" ".pdf" k (String.append s ".docx") =
  String.append (replace_from ".docx" ".pdf" k s) ".pdf".
Proof.
  revert k. induction s as [|c r IH]; intros k Hk.
  - simpl in Hk. assert (k = 0%nat) by lia. subst. reflexivity.
  - destruct k as [|k].
    + change (String.append (String c r) ".docx")
        with (String c (String.append r ".docx")).
      rewrite !replace_from_0.
      change (String c (String.append r ".docx"))
        with (String.append (String c r) ".docx").
      rewrite prefix_docx_app by discriminate.
      destruct (String.prefix ".docx" (String c r)) eqn:P.
      * apply prefix_length in P. simpl in P.
        change (String.length ".docx" - 1)%nat with 4%nat.
        rewrite IH by lia. apply string_app_assoc.
      * rewrite IH by lia. reflexivity.
    + simpl in Hk |- *. apply IH. lia.
Qed.

(** X7: a path that contains no ".docx" is its own PDF path, so the
    converter is asked to write the PDF over its input. *)
Theorem pdf_path_no_docx (docx_path : string) :
  str_contains ".docx" docx_path = false -> pdf_path_of docx_path = docx_path.
Proof.
  unfold pdf_path_of, py_str_replace.
  induction docx_path as [|c r IH]; intros H; [reflexivity|].
  simpl in H |- *. apply orb_false_iff in H. destruct H as [P C].
  simpl in P. rewrite P. rewrite (IH C). reflexivity.
Qed.

Lemma pdf_path_no_docx_witness :
  str_contains ".docx" "report.doc" = false /\ pdf_path_of "report.doc" = "report.doc".
Proof. split; [reflexivity|]. apply pdf_path_no_docx. reflexivity. Defined.

(** X8: a trailing ".docx" always becomes ".pdf", and every earlier
    occurrence of ".docx" in the path (in a directory name, say) is
    replaced too. *)
Theorem pdf_path_trailing_docx (stem : string) :
  pdf_path_of (String.append stem ".docx") = String.append (pdf_path_of stem) ".pdf".
Proof.
  unfold pdf_path_of, py_str_replace.
  apply replace_docx_app. lia.
Qed.

(** X9: for a stem without ".docx", the PDF path is the stem followed by
    ".pdf". *)
Theorem pdf_path_of_docx_file (stem : string) :
  str_contains ".docx" stem = false ->
  pdf_path_of (String.append stem ".docx") = String.append stem ".pdf".
Proof.
  intros H. unfold pdf_path_of, py_str_replace.
  rewrite replace_docx_app by lia.
  change (replace_from ".docx" ".pdf" 0 stem) with (pdf_path_of stem).
  rewrite pdf_path_no_docx by exact H. reflexivity.
Qed.

Lemma pdf_path_of_docx_file_witness :
  str_contains ".docx" "C:/docs/test_document" = false /\
  pdf_path_of "C:/docs/test_document.docx" = "C:/docs/test_document.pdf".
Proof.
  split; [reflexivity|].
  apply (pdf_path_of_docx_file "C:/docs/test_document"). reflexivity.
Defined.

(** ** Rendering *)

Lemma chunks_length {A : Type} (k n : nat) (xs : list A) :
  List.length (chunks k n xs) = n.
Proof.
  revert xs. induction n as [|n IH]; intros xs; simpl; [reflexivity|].
  rewrite IH. reflexivity.
Qed.

Lemma chunks_in_length {A : Type} (k n : nat) (xs : list A) :
  List.length xs = (n * k)%nat ->
  forall c, In c (chunks k n xs) -> List.length c = k.
Proof.
  revert xs. induction n as [|n IH]; intros xs Hl c Hc; simpl in Hc; [destruct Hc|].
  destruct Hc as [<-|Hc].
  - rewrite length_firstn. simpl in Hl. lia.
  - apply (IH (skipn k xs)); [|exact Hc].
    rewrite length_skipn. simpl in Hl. lia.
Qed.

Lemma map_opt_shape {A B : Type} (f : A -> option B) (P : B -> Prop) (l : list A) :
  (forall x, In x l -> exists y, f x = Some y /\ P y) ->
  exists l', map_opt f l = Some l' /\ List.length l' = List.length l /\
             forall y, In y l' -> P y.
Proof.
  induction l as [|x tl IH]; intros H.
  - exists []. split; [reflexivity|]. split; [reflexivity|intros y []].
  - destruct (H x (or_introl eq_refl)) as (y & Fy & Py).
    destruct IH as (l' & E & L & Pl).
    { intros z Hz. apply H. right. exact Hz. }
    exists (y :: l'). simpl. rewrite Fy, E. split; [reflexivity|].
    split; [simpl; rewrite L; reflexivity|].
    intros z [<-|Hz]; [exact Py|apply Pl, Hz].
Qed.

Lemma split_row_ok (row : list (list Z)) :
  (forall p, In p row -> List.length p = 3%nat) -> exists ps, split_row row = Some ps.
Proof.
  induction row as [|p tl IH]; intros H; [exists []; reflexivity|].
  destruct IH as [ps E]; [intros q Hq; apply H; right; exact Hq|].
  pose proof (H p (or_introl eq_refl)) as Hp.
  destruct p as [|b [|g [|r [|x rest]]]]; try discriminate.
  exists (mk_bgr b g r :: ps). simpl. rewrite E. reflexivity.
Qed.

Lemma split_rows_ok (rows : list (list (list Z))) :
  (forall row, In row rows -> forall p, In p row -> List.length p = 3%nat) ->
  exists img, split_rows rows = Some img.
Proof.
  induction rows as [|row tl IH]; intros H; [exists []; reflexivity|].
  destruct (split_row_ok row (H row (or_introl eq_refl))) as [ps E1].
  destruct IH as [pss E2]; [intros r Hr; apply H; right; exact Hr|].
  exists (ps :: pss). simpl. rewrite E1, E2. reflexivity.
Qed.

(** An array of [h >= 1] rows of [w >= 1] three-channel pixels is analysed
    without error. *)
Lemma analysis_body_rect3 (rows : list (list (list Z))) (w : nat) :
  rows <> [] -> w <> 0%nat ->
  (forall row, In row rows -> List.length row = w /\
                              forall p, In p row -> List.length p = 3%nat) ->
  exists d c, analysis_body (Arr3 rows) = Some (d, c).
Proof.
  intros Hne Hw H.
  assert (S : exists img, cv2_split rows = Some img).
  { destruct rows as [|row0 tl]; [contradiction|].
    unfold cv2_split.
    replace (forallb _ (row0 :: tl)) with true.
    - apply split_rows_ok. intros row Hr. apply (H row Hr).
    - symmetry. apply forallb_forall. intros row Hr. apply Nat.eqb_eq.
      rewrite (proj1 (H row Hr)). simpl.
      symmetry. apply (H row0 (or_introl eq_refl)). }
  destruct S as [img S].
  rewrite (analysis_body_split rows img S).
  destruct (Nat.eqb (List.length (List.concat img)) 0) eqn:E0; [|eauto].
  exfalso. apply Nat.eqb_eq in E0.
  rewrite (length_concat_uniform img _ (cv2_split_rect rows img S)) in E0.
  assert (Sr : split_rows rows = Some img).
  { unfold cv2_split in S. destruct (forallb _ rows); [exact S|discriminate]. }
  destruct (split_rows_shape rows img Sr) as [_ Hfirst].
  destruct img as [|r0 img'].
  - destruct rows as [|row0 tl]; [contradiction|].
    simpl in Sr. destruct (split_row row0), (split_rows tl); discriminate.
  - destruct Hfirst as (row0 & tl & -> & L).
    destruct (H row0 (or_introl eq_refl)) as [Lw _].
    simpl in E0. rewrite L, Lw in E0. nia.
Qed.

Lemma np_reshape_shape (buf : list Z) (h w n : nat) :
  List.length buf = (h * w * n)%nat ->
  np_reshape buf h w n = Some (map (chunks n w) (chunks (w * n) h buf)) /\
  List.length (map (chunks n w) (chunks (w * n) h buf)) = h /\
  forall row, In row (map (chunks n w) (chunks (w * n) h buf)) ->
    List.length row = w /\ forall p, In p row -> List.length p = n.
Proof.
  intros Hl. unfold np_reshape. rewrite Hl, Nat.eqb_refl.
  split; [reflexivity|]. split; [rewrite length_map; apply chunks_length|].
  intros row Hr. apply in_map_iff in Hr. destruct Hr as (c & <- & Hc).
  assert (Lc : List.length c = (w * n)%nat).
  { apply (chunks_in_length (w * n) h buf); [rewrite Hl; lia|exact Hc]. }
  split; [apply chunks_length|].
  apply chunks_in_length. rewrite Lc. lia.
Qed.

Lemma cvtColor_shape (f : list Z -> option (list Z)) (n : nat)
      (img : list (list (list Z))) (h w : nat) :
  (forall p, List.length p = n -> exists q, f p = Some q /\ List.length q = 3%nat) ->
  List.length img = h -> h <> 0%nat -> w <> 0%nat ->
  (forall row, In row img -> List.length row = w /\ forall p, In p row -> List.length p = n) ->
  exists out, cv2_cvtColor f img = Some out /\ out <> [] /\
    forall row, In row out -> List.length row = w /\
                              forall p, In p row -> List.length p = 3%nat.
Proof.
  intros Hf Lh Hh Hw H.
  unfold cv2_cvtColor.
  rewrite (length_concat_uniform img w (fun r Hr => proj1 (H r Hr)) ).
  destruct (Nat.eqb_spec (List.length img * w) 0) as [E|_]; [nia|].
  destruct (map_opt_shape (map_opt f)
              (fun row' => List.length row' = w /\ forall p, In p row' -> List.length p = 3%nat)
              img) as (out & E & L & P).
  { intros row Hr. destruct (H row Hr) as [Lr Pr].
    destruct (map_opt_shape f (fun q => List.length q = 3%nat) row) as (row' & E' & L' & P').
    { intros p Hp. apply Hf, Pr, Hp. }
    exists row'. split; [exact E'|]. split; [rewrite L'; exact Lr|exact P']. }
  exists out. split; [exact E|]. split; [|exact P].
  intros ->. simpl in L. lia.
Qed.

(** X10: every page PyMuPDF can hand over (RGB or RGBA, at least one pixel,
    [h * w * n] samples) is turned into an image and analysed without
    error, so the failure branch of the page loop is never taken for it. *)
Theorem page_image_analysed (pix : pixmap) :
  pixmap_ok pix = true ->
  exists rows d c, page_image pix = Some (Arr3 rows) /\
                   analysis_body (Arr3 rows) = Some (d, c).
Proof.
  unfold pixmap_ok. intros Hok.
  apply andb_true_iff in Hok as [Hok Hlen].
  apply andb_true_iff in Hok as [Hok Hw].
  apply andb_true_iff in Hok as [Hn Hh].
  apply Nat.eqb_eq in Hlen. apply Nat.leb_le in Hw. apply Nat.leb_le in Hh.
  destruct pix as [buf h w n]; simpl in *.
  destruct (np_reshape_shape buf h w n Hlen) as (R & Lh & Sh).
  unfold page_image. simpl. rewrite R.
  set (img := map (chunks n w) (chunks (w * n) h buf)) in *.
  assert (Hcv : exists out, (if Nat.eqb n 4 then cv2_cvtColor px_RGBA2BGR img
                            else cv2_cvtColor px_RGB2BGR img) = Some out /\ out <> [] /\
                forall row, In row out -> List.length row = w /\
                                          forall p, In p row -> List.length p = 3%nat).
  { apply orb_true_iff in Hn as [Hn|Hn]; apply Nat.eqb_eq in Hn; subst n; simpl.
    - apply (cvtColor_shape px_RGB2BGR 3 img h w); try lia; try assumption.
      intros p Lp. destruct p as [|r [|g [|b [|x rest]]]]; try discriminate.
      eexists. split; reflexivity.
    - apply (cvtColor_shape px_RGBA2BGR 4 img h w); try lia; try assumption.
      intros p Lp. destruct p as [|r [|g [|b [|a [|x rest]]]]]; try discriminate.
      eexists. split; reflexivity. }
  destruct Hcv as (out & Eo & Ne & Po). rewrite Eo.
  destruct (analysis_body_rect3 out w Ne ltac:(lia) Po) as (d & c & Ea).
  exists out, d, c. split; [reflexivity|exact Ea].
Qed.

Lemma page_image_analysed_witness :
  pixmap_ok (mk_pixmap [10; 20; 30; 255; 0; 0; 0; 255]%Z 1 2 4) = true /\
  exists rows d c, page_image (mk_pixmap [10; 20; 30; 255; 0; 0; 0; 255]%Z 1 2 4)
                     = Some (Arr3 rows) /\
                   analysis_body (Arr3 rows) = Some (d, c).
Proof. split; [reflexivity|]. apply page_image_analysed. reflexivity. Defined.

Lemma pages_analysed_cons_ok (img : ndarray) (l : list ndarray) (d : string) (c : Q) :
  analysis_body img = Some (d, c) -> pages_analysed (img :: l) = S (pages_analysed l).
Proof. intros H. unfold pages_analysed. simpl. rewrite H. reflexivity. Qed.

Lemma page_images_ok (pixs : list pixmap) :
  forallb pixmap_ok pixs = true ->
  exists imgs, page_images pixs = Some imgs /\ List.length imgs = List.length pixs /\
               pages_analysed imgs = List.length imgs.
Proof.
  induction pixs as [|pix rest IH]; intros H; [exists []; auto|].
  simpl in H. apply andb_true_iff in H as [H1 H2].
  destruct (IH H2) as (imgs & E & L & A).
  destruct (page_image_analysed pix H1) as (rows & d & c & Ep & Ea).
  exists (Arr3 rows :: imgs). simpl. rewrite Ep, E.
  split; [reflexivity|]. split; [simpl; rewrite L; reflexivity|].
  rewrite (pages_analysed_cons_ok _ imgs d c Ea), A. reflexivity.
Qed.

(** X11: for a document whose pages all render as RGB or RGBA pixmaps
    with at least one pixel, the run completes, every page is analysed and
    priced, and with N pages the totals satisfy 2N <= B&W <= 5N and
    B&W + N <= color <= 10N. *)
Theorem process_pixmaps_ok (pixs : list pixmap) :
  forallb pixmap_ok pixs = true ->
  exists r, process_pixmaps pixs = Some r /\
    total_pages_printed r = List.length pixs /\
    (2 * Z.of_nat (List.length pixs) <= grand_total_bw r
       <= 5 * Z.of_nat (List.length pixs))%Z /\
    (grand_total_bw r + Z.of_nat (List.length pixs) <= grand_total_color r
       <= 10 * Z.of_nat (List.length pixs))%Z.
Proof.
  intros H. destruct (page_images_ok pixs H) as (imgs & E & L & A).
  exists (process_pages imgs). unfold process_pixmaps. rewrite E.
  pose proof (process_pages_total_bounds imgs) as B. simpl in B.
  rewrite A, L in B. split; [reflexivity|].
  split; [|exact B].
  unfold process_pages. destruct (page_loop imgs _). simpl. exact L.
Qed.

Lemma process_pixmaps_ok_witness :
  forallb pixmap_ok [mk_pixmap [255; 255; 255]%Z 1 1 3;
                     mk_pixmap [0; 0; 0; 0]%Z 1 1 4] = true /\
  exists r, process_pixmaps [mk_pixmap [255; 255; 255]%Z 1 1 3;
                             mk_pixmap [0; 0; 0; 0]%Z 1 1 4] = Some r /\
    total_pages_printed r = 2%nat /\
    (2 * Z.of_nat 2 <= grand_total_bw r <= 5 * Z.of_nat 2)%Z /\
    (grand_total_bw r + Z.of_nat 2 <= grand_total_color r <= 10 * Z.of_nat 2)%Z.
Proof. split; [reflexivity|]. apply process_pixmaps_ok. reflexivity. Defined.

Lemma map_opt_some {A B : Type} (f : A -> option B) (l : list A) (l' : list B) :
  map_opt f l = Some l' -> Forall2 (fun x y => f x = Some y) l l'.
Proof.
  revert l'. induction l as [|x tl IH]; intros l' H; simpl in H.
  - injection H as <-. constructor.
  - destruct (f x) eqn:Fx; [|discriminate].
    destruct (map_opt f tl) eqn:E; [|discriminate].
    injection H as <-. constructor; [exact Fx|apply IH; reflexivity].
Qed.

Lemma Forall2_in_r {A B : Type} (R : A -> B -> Prop) (l : list A) (l' : list B) (y : B) :
  Forall2 R l l' -> In y l' -> exists x, In x l /\ R x y.
Proof.
  intros H. induction H as [|x y' l l' Hxy H IH]; intros Hy; [destruct Hy|].
  destruct Hy as [<-|Hy]; [exists x; split; [left; reflexivity|exact Hxy]|].
  destruct (IH Hy) as (x' & Hx' & R'). exists x'. split; [right; exact Hx'|exact R'].
Qed.

Lemma px_RGB2BGR_length (p q : list Z) : px_RGB2BGR p = Some q -> List.length q = 3%nat.
Proof.
  destruct p as [|a [|b [|c [|x rest]]]]; simpl; intros H; try discriminate;
  injection H as <-; reflexivity.
Qed.

Lemma px_RGBA2BGR_length (p q : list Z) : px_RGBA2BGR p = Some q -> List.length q = 3%nat.
Proof.
  destruct p as [|a [|b [|c [|d [|x rest]]]]]; simpl; intros H; try discriminate;
  injection H as <-; reflexivity.
Qed.

(** Whatever [cv2.cvtColor] returns for an array of rows of width [w] is a
    non-empty array of rows of width [w >= 1] of three-channel pixels. *)
Lemma cvtColor_some_shape (f : list Z -> option (list Z))
      (img out : list (list (list Z))) (w : nat) :
  (forall p q, f p = Some q -> List.length q = 3%nat) ->
  (forall row, In row img -> List.length row = w) ->
  cv2_cvtColor f img = Some out ->
  out <> [] /\ w <> 0%nat /\
  forall row, In row out -> List.length row = w /\
                            forall p, In p row -> List.length p = 3%nat.
Proof.
  intros Hf Hw. unfold cv2_cvtColor.
  rewrite (length_concat_uniform img w Hw).
  destruct (Nat.eqb_spec (List.length img * w) 0) as [_|Hne]; [discriminate|].
  intros E. apply map_opt_some in E.
  split; [|split].
  - intros ->. inversion E; subst. simpl in Hne. lia.
  - intros ->. lia.
  - intros row' Hr.
    destruct (Forall2_in_r _ _ _ _ E Hr) as (row & Hrow & Er).
    apply map_opt_some in Er. split.
    + rewrite <- (Forall2_length Er). apply Hw, Hrow.
    + intros q Hq. destruct (Forall2_in_r _ _ _ _ Er Hq) as (p & _ & Ep).
      apply (Hf p q Ep).
Qed.

(** Every image [process_document] renders from a pixmap is analysed
    without error. *)
Lemma page_image_analysis_ok (pix : pixmap) (img : ndarray) :
  page_image pix = Some img -> exists d c, analysis_body img = Some (d, c).
Proof.
  destruct pix as [buf h w n]. unfold page_image. cbn [samples pix_h pix_w pix_n].
  unfold np_reshape.
  destruct (Nat.eqb_spec (List.length buf) (h * w * n)) as [Hl|_]; [|discriminate].
  destruct (np_reshape_shape buf h w n Hl) as (_ & _ & Sh).
  set (arr := map (chunks n w) (chunks (w * n) h buf)) in *.
  assert (Hw : forall row, In row arr -> List.length row = w)
    by (intros row Hr; apply (Sh row Hr)).
  destruct (if Nat.eqb n 4 then cv2_cvtColor px_RGBA2BGR arr
            else cv2_cvtColor px_RGB2BGR arr) as [out|] eqn:E; [|discriminate].
  intros H. injection H as <-.
  assert (P : out <> [] /\ w <> 0%nat /\
              forall row, In row out -> List.length row = w /\
                                        forall p, In p row -> List.length p = 3%nat).
  { destruct (Nat.eqb n 4).
    - apply (cvtColor_some_shape px_RGBA2BGR arr out w px_RGBA2BGR_length Hw E).
    - apply (cvtColor_some_shape px_RGB2BGR arr out w px_RGB2BGR_length Hw E). }
  destruct P as (Ne & Hw0 & Po).
  apply (analysis_body_rect3 out w Ne Hw0 Po).
Qed.

Lemma page_images_analysed (pixs : list pixmap) (imgs : list ndarray) :
  page_images pixs = Some imgs ->
  (forall i, In i imgs -> analysis_body i <> None) /\
  pages_analysed imgs = List.length imgs.
Proof.
  revert imgs. induction pixs as [|pix rest IH]; intros imgs H; cbn [page_images] in H.
  - injection H as <-. split; [intros i []|reflexivity].
  - destruct (page_image pix) as [img|] eqn:E1; [|discriminate].
    destruct (page_images rest) as [imgs'|] eqn:E2; [|discriminate].
    injection H as <-.
    destruct (page_image_analysis_ok pix img E1) as (d & c & Ea).
    destruct (IH imgs' eq_refl) as [A L].
    split.
    + intros i [<-|Hi]; [rewrite Ea; discriminate|apply A, Hi].
    + rewrite (pages_analysed_cons_ok _ _ d c Ea), L. reflexivity.
Qed.

(** C5: a page whose analysis fails is skipped: it adds nothing to the
    grand totals. On the path of [process_document] no analysis fails:
    every image rendered from a pixmap is analysed, so the reported "Total
    Pages Processed" is the number of pages analysed and priced, and no
    failed page is ever counted. *)
Theorem process_document_skips_failed (pre post : list ndarray) (img : ndarray)
        (pixs : list pixmap) (imgs : list ndarray) :
  (analysis_body img = None ->
   grand_total_bw (process_pages (pre ++ img :: post)) =
     grand_total_bw (process_pages (pre ++ post)) /\
   grand_total_color (process_pages (pre ++ img :: post)) =
     grand_total_color (process_pages (pre ++ post))) /\
  (page_images pixs = Some imgs ->
   (forall i, In i imgs -> analysis_body i <> None) /\
   total_pages_printed (process_pages imgs) = pages_analysed imgs).
Proof.
  split; [apply process_pages_skip_failed|].
  intros H. destruct (page_images_analysed pixs imgs H) as [A L].
  split; [exact A|]. rewrite L.
  unfold process_pages. destruct (page_loop imgs _). reflexivity.
Qed.

Lemma process_document_skips_failed_witness :
  analysis_body OtherObj = None /\
  page_images [mk_pixmap [255; 255; 255]%Z 1 1 3; mk_pixmap [7]%Z 1 1 1] =
    Some [Arr3 [[white]]; Arr3 [[[7; 7; 7]]]%Z] /\
  (grand_total_bw (process_pages ([Arr3 [[white]]] ++ OtherObj :: [Arr3 [[black]]])) =
     grand_total_bw (process_pages ([Arr3 [[white]]] ++ [Arr3 [[black]]])) /\
   grand_total_color (process_pages ([Arr3 [[white]]] ++ OtherObj :: [Arr3 [[black]]])) =
     grand_total_color (process_pages ([Arr3 [[white]]] ++ [Arr3 [[black]]]))) /\
  ((forall i, In i [Arr3 [[white]]; Arr3 [[[7; 7; 7]]]%Z] -> analysis_body i <> None) /\
   total_pages_printed (process_pages [Arr3 [[white]]; Arr3 [[[7; 7; 7]]]%Z]) =
     pages_analysed [Arr3 [[white]]; Arr3 [[[7; 7; 7]]]%Z]).
Proof.
  destruct (process_document_skips_failed [Arr3 [[white]]] [Arr3 [[black]]] OtherObj
              [mk_pixmap [255; 255; 255]%Z 1 1 3; mk_pixmap [7]%Z 1 1 1]
              [Arr3 [[white]]; Arr3 [[[7; 7; 7]]]%Z]) as [H1 H2].
  split; [reflexivity|]. split; [reflexivity|].
  split; [apply H1; reflexivity|apply H2; reflexivity].
Defined.

Lemma drop_alpha_length (k : nat) (xs : list Z) :
  List.length xs = (k * 4)%nat -> List.length (drop_alpha xs) = (k * 3)%nat.
Proof.
  revert xs. induction k as [|k IH]; intros xs H.
  - destruct xs; [reflexivity|discriminate].
  - destruct xs as [|r [|g [|b [|a rest]]]]; simpl in H; try lia.
    simpl. rewrite (IH rest) by lia. lia.
Qed.

Lemma drop_alpha_firstn_skipn (k : nat) (xs : list Z) :
  (k * 4 <= List.length xs)%nat ->
  firstn (k * 3) (drop_alpha xs) = drop_alpha (firstn (k * 4) xs) /\
  skipn (k * 3) (drop_alpha xs) = drop_alpha (skipn (k * 4) xs).
Proof.
  revert xs. induction k as [|k IH]; intros xs H.
  - simpl. split; [destruct (drop_alpha xs); reflexivity|reflexivity].
  - destruct xs as [|r [|g [|b [|a rest]]]]; simpl in H; try lia.
    destruct (IH rest ltac:(lia)) as [F S].
    simpl. rewrite F, S. split; reflexivity.
Qed.

Lemma drop_alpha_chunks (k n : nat) (xs : list Z) :
  (n * (k * 4) <= List.length xs)%nat ->
  chunks (k * 3) n (drop_alpha xs) = map drop_alpha (chunks (k * 4) n xs).
Proof.
  revert xs. induction n as [|n IH]; intros xs H; [reflexivity|].
  simpl in H |- *.
  destruct (drop_alpha_firstn_skipn k xs ltac:(lia)) as [F S].
  rewrite F, S, IH; [reflexivity|].
  rewrite length_skipn. lia.
Qed.

Lemma map_opt_map {A B C : Type} (f : B -> option C) (g : A -> B) (f' : A -> option C)
      (l : list A) :
  (forall x, In x l -> f (g x) = f' x) -> map_opt f (map g l) = map_opt f' l.
Proof.
  induction l as [|x tl IH]; intros H; [reflexivity|].
  simpl. rewrite (H x (or_introl eq_refl)), IH; [reflexivity|].
  intros y Hy. apply H. right. exact Hy.
Qed.

(** X14: the alpha channel of an RGBA page is ignored: the page gives the
    same image as the RGB pixmap of its red, green and blue bytes, so a
    fully transparent pixel counts by its color values, not as blank. *)
Theorem page_image_ignores_alpha (pix : pixmap) :
  pix_n pix = 4%nat ->
  List.length (samples pix) = (pix_h pix * pix_w pix * 4)%nat ->
  page_image pix = page_image (mk_pixmap (drop_alpha (samples pix)) (pix_h pix) (pix_w pix) 3).
Proof.
  destruct pix as [buf h w n]; simpl. intros -> Hl.
  assert (Hl3 : List.length (drop_alpha buf) = (h * w * 3)%nat).
  { rewrite (drop_alpha_length (h * w) buf) by (rewrite Hl; lia). reflexivity. }
  destruct (np_reshape_shape buf h w 4 Hl) as (R4 & L4 & S4).
  destruct (np_reshape_shape (drop_alpha buf) h w 3 Hl3) as (R3 & _ & _).
  unfold page_image. simpl. rewrite R4, R3.
  rewrite (drop_alpha_chunks w h buf) by (rewrite Hl; lia).
  rewrite map_map.
  assert (Rows : map (fun x => chunks 3 w (drop_alpha x)) (chunks (w * 4) h buf) =
                 map (map drop_alpha) (map (chunks 4 w) (chunks (w * 4) h buf))).
  { rewrite map_map. apply map_ext_in. intros c Hc.
    apply (drop_alpha_chunks 1 w c).
    rewrite (chunks_in_length (w * 4) h buf) by (assumption || (rewrite Hl; lia)).
    lia. }
  rewrite Rows.
  set (img := map (chunks 4 w) (chunks (w * 4) h buf)) in *.
  unfold cv2_cvtColor.
  rewrite <- concat_map, length_map.
  destruct (Nat.eqb (List.length (List.concat img)) 0); [reflexivity|].
  rewrite (map_opt_map (map_opt px_RGB2BGR) (map drop_alpha) (map_opt px_RGBA2BGR) img);
    [reflexivity|].
  intros row Hr. apply map_opt_map. intros p Hp.
  destruct (S4 row Hr) as [_ Pp]. pose proof (Pp p Hp) as L.
  destruct p as [|r [|g [|b [|a [|x rest]]]]]; try discriminate. reflexivity.
Qed.

Lemma page_image_ignores_alpha_witness :
  pix_n (mk_pixmap [0; 0; 0; 0; 9; 9; 9; 255]%Z 1 2 4) = 4%nat /\
  List.length (samples (mk_pixmap [0; 0; 0; 0; 9; 9; 9; 255]%Z 1 2 4)) = (1 * 2 * 4)%nat /\
  page_image (mk_pixmap [0; 0; 0; 0; 9; 9; 9; 255]%Z 1 2 4) =
  page_image (mk_pixmap (drop_alpha [0; 0; 0; 0; 9; 9; 9; 255]%Z) 1 2 3).
Proof.
  split; [reflexivity|]. split; [reflexivity|].
  apply (page_image_ignores_alpha (mk_pixmap [0; 0; 0; 0; 9; 9; 9; 255]%Z 1 2 4));
  reflexivity.
Defined.

(** ** Luminance *)

(** X15: the luminance of an 8-bit pixel lies in [0, 255], and a grey
    pixel (equal blue, green and red v) has luminance v; so on a grey page
    the ink pixels are exactly those of value at most 240. *)
Theorem bgr2gray_range_grey (p : bgr) :
  (0 <= px_b p <= 255)%Z -> (0 <= px_g p <= 255)%Z -> (0 <= px_r p <= 255)%Z ->
  (0 <= bgr2gray p <= 255)%Z /\
  (px_b p = px_g p -> px_g p = px_r p -> bgr2gray p = px_g p).
Proof.
  intros Hb Hg Hr. unfold bgr2gray.
  rewrite Z.shiftr_div_pow2 by lia.
  change (Z.shiftl 1 14) with 16384%Z. change (2 ^ 15)%Z with 32768%Z.
  split.
  - split.
    + apply Z.div_pos; lia.
    + assert (Z.div (px_b p * 3735 + px_g p * 19235 + px_r p * 9798 + 16384) 32768 < 256)%Z
        by (apply Z.div_lt_upper_bound; lia).
      lia.
  - intros E1 E2. rewrite E1, <- E2.
    symmetry. apply (Z.div_unique _ 32768 _ 16384); lia.
Qed.

Lemma bgr2gray_range_grey_witness :
  (0 <= px_b (mk_bgr 200 200 200) <= 255)%Z /\ (0 <= px_g (mk_bgr 200 200 200) <= 255)%Z /\
  (0 <= px_r (mk_bgr 200 200 200) <= 255)%Z /\
  (0 <= bgr2gray (mk_bgr 200 200 200) <= 255)%Z /\
  (px_b (mk_bgr 200 200 200) = px_g (mk_bgr 200 200 200) ->
   px_g (mk_bgr 200 200 200) = px_r (mk_bgr 200 200 200) ->
   bgr2gray (mk_bgr 200 200 200) = px_g (mk_bgr 200 200 200)).
Proof.
  simpl. split; [lia|]. split; [lia|]. split; [lia|].
  apply (bgr2gray_range_grey (mk_bgr 200 200 200)); simpl; lia.
Defined.
